(** * pyxdis.main: version-adaptive disassembly driver

    A shallow embedding of [src/pyxdis/main.py]: the opcode-table
    selection [get_opcode], the entry point [disco], the breadth-first
    work-queue loop [disco_loop], [disassemble_file] and the script entry
    point [_test].

    Python objects live in a store indexed by identity, so that shared and
    cyclic references between code objects can be expressed.  Effects
    (writes to streams, exceptions, a loop that may run forever) are
    threaded through a small state-and-exception monad.  The imported
    helpers are functions of what they read in the first model, and
    arbitrary computations in a second one, [Effectful], which is the
    first when the helpers only read. *)

From Stdlib Require Import List String Ascii ZArith Bool Arith Lia.
From Stdlib Require Import Floats.SpecFloat.
Import ListNotations.
Open Scope string_scope.
Open Scope list_scope.

(** ** Python values *)

(** Identity of a code object in the object store. *)
Definition addr := nat.

(** The objects with a [write] method: the two standard streams, the
    writers a caller passes in, and the writers among them whose truth
    value is false (an object may define its own truth value, say by a
    length that is 0). *)
Inductive stream : Type :=
| sys_stdout
| sys_stderr
| user_stream (n : nat)
| falsy_stream (n : nat).

Definition stream_eqb (a b : stream) : bool :=
  match a, b with
  | sys_stdout, sys_stdout => true
  | sys_stderr, sys_stderr => true
  | user_stream n, user_stream m => Nat.eqb n m
  | falsy_stream n, falsy_stream m => Nat.eqb n m
  | _, _ => false
  end.

(** The truth value of a writer. *)
Definition stream_truthy (s : stream) : bool :=
  match s with
  | falsy_stream _ => false
  | _ => true
  end.

(** The values that reach [disco] and the instruction operands:
    a reference to a code object is [VCode]. *)
Inductive value : Type :=
| VNone
| VBool (b : bool)
| VInt (z : Z)
| VStr (s : string)
| VCode (a : addr)
| VStream (s : stream).

(** [pyxdis.code.iscode]: the run-time type test. *)
Definition iscode (v : value) : bool :=
  match v with
  | VCode _ => true
  | _ => false
  end.

(** Python truthiness, as used by [out or sys.stdout]. *)
Definition truthy (v : value) : bool :=
  match v with
  | VNone => false
  | VBool b => b
  | VInt z => negb (Z.eqb z 0)
  | VStr s => negb (String.eqb s "")
  | VCode _ => true
  | VStream s => stream_truthy s
  end.

(** [a or b] *)
Definition py_or (a b : value) : value := if truthy a then a else b.

(** A Python float is an IEEE binary64 number; [==] is [SFeqb]. *)
Definition pyfloat := spec_float.

(** The float literals of [get_opcode]: the binary64 number nearest to the
    decimal, mantissa and exponent written out. *)
Definition f2_3 : pyfloat := S754_finite false 5179139571476070 (-51).
Definition f2_4 : pyfloat := S754_finite false 5404319552844595 (-51).
Definition f2_5 : pyfloat := S754_finite false 5629499534213120 (-51).
Definition f2_6 : pyfloat := S754_finite false 5854679515581645 (-51).
Definition f2_7 : pyfloat := S754_finite false 6079859496950170 (-51).
Definition f3_0 : pyfloat := S754_finite false 6755399441055744 (-51).
Definition f3_1 : pyfloat := S754_finite false 6980579422424269 (-51).
Definition f3_2 : pyfloat := S754_finite false 7205759403792794 (-51).
Definition f3_3 : pyfloat := S754_finite false 7430939385161318 (-51).
Definition f3_4 : pyfloat := S754_finite false 7656119366529843 (-51).
Definition f3_5 : pyfloat := S754_finite false 7881299347898368 (-51).
(** 9.9, the unsupported revision of the spec's test. *)
Definition f9_9 : pyfloat := S754_finite false 5573204538870989 (-49).

(** ** Code objects, instructions, opcode tables *)

(** The attributes of a code object (spec, data model). *)
Record CodeObject : Type := mkCode {
  co_name : string;
  co_filename : string;
  co_firstlineno : Z;
  co_code : list nat;
  co_consts : list value;
  co_names : list string;
  co_varnames : list string
}.

(** A decoded instruction, as [Bytecode.get_instructions] yields it. *)
Record Instruction : Type := mkInstr {
  offset : nat;
  opname : string;
  arg : option Z;
  argval : value
}.

(** The opcode modules imported from [pyxdis.opcodes]. *)
Inductive OpcodeModule : Type :=
| opcode_23 | opcode_24 | opcode_25
| opcode_26 | opcode_pypy26
| opcode_27 | opcode_pypy27
| opcode_30 | opcode_31
| opcode_32 | opcode_33 | opcode_34 | opcode_35.

Definition OpcodeModule_eqb (a b : OpcodeModule) : bool :=
  match a, b with
  | opcode_23, opcode_23 | opcode_24, opcode_24 | opcode_25, opcode_25
  | opcode_26, opcode_26 | opcode_pypy26, opcode_pypy26
  | opcode_27, opcode_27 | opcode_pypy27, opcode_pypy27
  | opcode_30, opcode_30 | opcode_31, opcode_31
  | opcode_32, opcode_32 | opcode_33, opcode_33
  | opcode_34, opcode_34 | opcode_35, opcode_35 => true
  | _, _ => false
  end.

(** Modelled from the spec: the contents of an opcode table
    ([pyxdis.opcodes] is not part of the sources at hand).  An opcode byte
    maps to its definition, or to nothing. *)
Inductive operandKind : Type :=
| KNone | KConstant | KName | KLocal
| KRelativeJump | KAbsoluteJump | KRawInt | KFreeVar.

Record OpcodeDef : Type := mkOpcodeDef {
  mnemonic : string;
  hasArgument : bool;
  opKind : operandKind
}.

Definition OpcodeTable := nat -> option OpcodeDef.

(** ** The world: object store, opcode tables, streams *)

Record world : Type := mkWorld {
  objs : addr -> CodeObject;
  opcodes : OpcodeModule -> OpcodeTable;
  streams : stream -> list string
}.

(** ** Exceptions and the monad *)

Inductive exn : Type :=
| AssertionError
| AttributeError (msg : string)
| TypeError (msg : string)
| ValueError (msg : string)
| SystemExit (code : Z)
| DecodeError (msg : string).

(** What a helper that may raise returns. *)
Inductive result (A : Type) : Type :=
| Ok (a : A)
| Raise (e : exn).
Arguments Ok {A} a.
Arguments Raise {A} e.

(** What a computation ends in: a value, an exception, or a loop that is
    still running when the fuel is spent. *)
Inductive outcome (A : Type) : Type :=
| Done (a : A)
| Raised (e : exn)
| Running.
Arguments Done {A} a.
Arguments Raised {A} e.
Arguments Running {A}.

Definition M (A : Type) : Type := world -> outcome A * world.

Definition ret {A} (a : A) : M A := fun w => (Done a, w).

Definition bind {A B} (m : M A) (k : A -> M B) : M B :=
  fun w =>
    match m w with
    | (Done a, w') => k a w'
    | (Raised e, w') => (Raised e, w')
    | (Running, w') => (Running, w')
    end.

Definition raise {A} (e : exn) : M A := fun w => (Raised e, w).

Definition running {A} : M A := fun w => (Running, w).

Definition lift {A} (r : result A) : M A :=
  match r with
  | Ok a => ret a
  | Raise e => raise e
  end.

Declare Scope py_scope.
Delimit Scope py_scope with py.
Notation "x <- c ;; k" := (bind c (fun x => k))
  (at level 61, c at next level, right associativity) : py_scope.
Notation "c ;;; k" := (bind c (fun _ => k))
  (at level 61, right associativity) : py_scope.
Open Scope py_scope.

(** [co.attr]: only a code object has the attributes read here. *)
Definition getattr {A} (f : CodeObject -> A) (co : value) : M A :=
  match co with
  | VCode a => fun w => (Done (f (objs w a)), w)
  | _ => raise (AttributeError "object has no such attribute")
  end.

(** Appending one string to a stream of the world. *)
Definition append_stream (s : stream) (text : string) (w : world) : world :=
  mkWorld (objs w) (opcodes w)
          (fun s' => if stream_eqb s' s then streams w s' ++ [text]
                     else streams w s').

(** [out.write]: the attribute lookup, which comes before the arguments
    of the call are evaluated.  Only a stream has a [write] attribute. *)
Definition write_method (out : value) : M (string -> M unit) :=
  match out with
  | VStream s => ret (fun text w => (Done tt, append_stream s text w))
  | _ => raise (AttributeError "object has no attribute 'write'")
  end.

(** [out.write(text)] for a [text] whose evaluation cannot raise. *)
Definition write (out : value) (text : string) : M unit :=
  f <- write_method out ;; f text.

(** The newline character of the string literals. *)
Definition nl : string := String (ascii_of_nat 10) EmptyString.

(** ** What the module imports

    [pyxdis.bytecode.Bytecode], [pyxdis.util.format_code_info],
    [pyxdis.load], the constants [PYTHON_VERSION], [IS_PYPY] and
    [PYTHON3], and Python's own [str] and [datetime] are not in the
    sources at hand: they are the parameters of the development.  The
    helpers read the object store and the table they are given;
    [datetime.datetime.fromtimestamp] and [strftime] raise on what they
    cannot render. *)
Class Imports : Type := {
  IS_PYPY : bool;
  PYTHON_VERSION : pyfloat;
  PYTHON3 : bool;
  file__ : string;
  str_float : pyfloat -> string;
  datetime : Type;
  fromtimestamp : Z -> result datetime;
  strftime : datetime -> string -> result string;
  format_code_info : (addr -> CodeObject) -> CodeObject -> pyfloat -> string;
  Bytecode_dis :
    (addr -> CodeObject) -> OpcodeTable -> CodeObject -> result string;
  Bytecode_get_instructions :
    (addr -> CodeObject) -> OpcodeTable -> CodeObject ->
    result (list Instruction);
  check_object_path : string -> M string;
  load_module : string -> M (pyfloat * Z * Z * value)
}.

(** ** [get_opcode] *)

Definition get_opcode `{Imports} (version : pyfloat) : result OpcodeModule :=
  if SFeqb version f2_3 then Ok opcode_23
  else if SFeqb version f2_4 then Ok opcode_24
  else if SFeqb version f2_5 then Ok opcode_25
  else if SFeqb version f2_6 then
    if IS_PYPY then Ok opcode_pypy26 else Ok opcode_26
  else if SFeqb version f2_7 then
    if IS_PYPY then Ok opcode_pypy27 else Ok opcode_27
  else if SFeqb version f3_0 then Ok opcode_30
  else if SFeqb version f3_1 then Ok opcode_31
  else if SFeqb version f3_2 then Ok opcode_32
  else if SFeqb version f3_3 then Ok opcode_33
  else if SFeqb version f3_4 then Ok opcode_34
  else if SFeqb version f3_5 then Ok opcode_35
  else Raise (TypeError
                (str_float version ++ " is not a Python version I know about")).

(** ** Calls into the imported helpers *)

(** [format_code_info(co, version)] *)
Definition call_format_code_info `{Imports}
  (co : value) (version : pyfloat) : M string :=
  match co with
  | VCode a =>
      fun w => (Done (format_code_info (objs w) (objs w a) version), w)
  | _ => raise (AttributeError "object has no such attribute")
  end.

(** [Bytecode(co, opc).dis()] *)
Definition call_dis `{Imports} (co : value) (opc : OpcodeModule) : M string :=
  match co with
  | VCode a =>
      fun w => lift (Bytecode_dis (objs w) (opcodes w opc) (objs w a)) w
  | _ => raise (AttributeError "object has no such attribute")
  end.

(** [Bytecode(co, opc).get_instructions(co)], the whole iteration. *)
Definition call_get_instructions `{Imports}
  (co : value) (opc : OpcodeModule) : M (list Instruction) :=
  match co with
  | VCode a =>
      fun w =>
        lift (Bytecode_get_instructions (objs w) (opcodes w opc) (objs w a)) w
  | _ => raise (AttributeError "object has no such attribute")
  end.

(** ** [disco_loop] *)

(** The [for instr in ...] loop: [queue.append(instr.argval)] for every
    instruction whose [argval] is a code object. *)
Definition enqueue_code (queue : list value) (instrs : list Instruction)
  : list value :=
  fold_left
    (fun q instr => if iscode (argval instr) then q ++ [argval instr] else q)
    instrs queue.

(** One iteration of the [while] loop, after [co = queue.popleft()];
    it returns the queue as the iteration leaves it. *)
Definition loop_body `{Imports}
  (opc : OpcodeModule) (version : pyfloat) (real_out : value)
  (co : value) (queue : list value) : M (list value) :=
  name <- getattr co_name co ;;
  (if negb (String.eqb name "<module>") then
     wr <- write_method real_out ;;
     info <- call_format_code_info co version ;;
     wr (nl ++ info ++ nl)%string
   else ret tt) ;;;
  wr <- write_method real_out ;;
  text <- call_dis co opc ;;
  wr (text ++ nl)%string ;;;
  instrs <- call_get_instructions co opc ;;
  ret (enqueue_code queue instrs).

(** [while len(queue) > 0: ...]; [fuel] bounds the number of iterations
    and [Running] is what is left when it is spent. *)
Fixpoint disco_loop `{Imports} (fuel : nat)
  (opc : OpcodeModule) (version : pyfloat) (queue : list value)
  (real_out : value) : M unit :=
  match queue with
  | [] => ret tt
  | co :: queue' =>
      match fuel with
      | O => running
      | S fuel' =>
          queue'' <- loop_body opc version real_out co queue' ;;
          disco_loop fuel' opc version queue'' real_out
      end
  end.

(** ** [disco] *)

Definition program_header `{Imports} (version : pyfloat) : string :=
  ("# Python bytecode " ++ str_float version ++
   " (disassembled from Python " ++ str_float PYTHON_VERSION ++ ")" ++ nl)%string.

Definition timestamp_format : string :=
  ("# Timestamp in code: %Y-%m-%d %H:%M:%S" ++ nl)%string.

Definition disco `{Imports} (fuel : nat)
  (version : pyfloat) (co : value) (timestamp : Z) (out : value) : M unit :=
  (if iscode co then ret tt else raise AssertionError) ;;;
  let real_out := py_or out (VStream sys_stdout) in
  write out (program_header version) ;;;
  (if (0 <? timestamp)%Z then
     value <- lift (fromtimestamp timestamp) ;;
     wr <- write_method out ;;
     text <- lift (strftime value timestamp_format) ;;
     wr text
   else ret tt) ;;;
  filename <- getattr co_filename co ;;
  (if truthy (VStr filename) then
     wr <- write_method out ;;
     info <- call_format_code_info co version ;;
     wr (info ++ nl)%string
   else ret tt) ;;;
  opc <- lift (get_opcode version) ;;
  disco_loop fuel opc version [co] real_out.

(** ** [disassemble_file] *)

Definition disassemble_file `{Imports} (fuel : nat)
  (filename : string) (outstream : value) : M unit :=
  filename <- check_object_path filename ;;
  loaded <- load_module filename ;;
  let '(version, timestamp, magic_int, co) := loaded in
  disco fuel version co timestamp outstream.

(** ** Python's call protocol, as far as [_test] needs it

    A function is its name, its parameters (each with its default, if it
    has one) and its body over the bound arguments.  A call binds the
    positional arguments from the left, then the keyword arguments by
    name, then the defaults; whatever does not fit raises [TypeError]. *)
Definition bindings := list (string * value).

Record pyfunction : Type := mkFunction {
  fn_name : string;
  fn_params : list (string * option value);
  fn_body : bindings -> M unit
}.

Fixpoint lookup (name : string) (env : bindings) : option value :=
  match env with
  | [] => None
  | (k, v) :: env' => if String.eqb k name then Some v else lookup name env'
  end.

Fixpoint has_param (name : string) (params : list (string * option value))
  : bool :=
  match params with
  | [] => false
  | (p, _) :: params' => String.eqb p name || has_param name params'
  end.

Fixpoint bind_positional (fname : string)
  (params : list (string * option value)) (args : list value)
  : result (bindings * list (string * option value)) :=
  match args, params with
  | [], _ => Ok ([], params)
  | a :: args', (p, _) :: params' =>
      match bind_positional fname params' args' with
      | Ok (env, rest) => Ok ((p, a) :: env, rest)
      | Raise e => Raise e
      end
  | _ :: _, [] =>
      Raise (TypeError (fname ++ "() takes fewer positional arguments"))
  end.

Fixpoint bind_keywords (fname : string)
  (rest : list (string * option value)) (env : bindings)
  (kwargs : bindings) : result bindings :=
  match kwargs with
  | [] => Ok env
  | (k, v) :: kwargs' =>
      match lookup k env with
      | Some _ =>
          Raise (TypeError
                   (fname ++ "() got multiple values for argument '" ++ k ++ "'"))
      | None =>
          if has_param k rest
          then bind_keywords fname rest (env ++ [(k, v)]) kwargs'
          else Raise (TypeError
                        (fname ++ "() got an unexpected keyword argument '"
                           ++ k ++ "'"))
      end
  end.

Fixpoint bind_defaults (fname : string)
  (rest : list (string * option value)) (env : bindings) : result bindings :=
  match rest with
  | [] => Ok env
  | (p, d) :: rest' =>
      match lookup p env, d with
      | Some _, _ => bind_defaults fname rest' env
      | None, Some v => bind_defaults fname rest' (env ++ [(p, v)])
      | None, None =>
          Raise (TypeError
                   (fname ++ "() missing required argument '" ++ p ++ "'"))
      end
  end.

Definition bind_arguments (f : pyfunction)
  (args : list value) (kwargs : bindings) : result bindings :=
  match bind_positional (fn_name f) (fn_params f) args with
  | Raise e => Raise e
  | Ok (env, rest) =>
      match bind_keywords (fn_name f) rest env kwargs with
      | Raise e => Raise e
      | Ok env' => bind_defaults (fn_name f) rest env'
      end
  end.

Definition call (f : pyfunction) (args : list value) (kwargs : bindings)
  : M unit :=
  env <- lift (bind_arguments f args kwargs) ;; fn_body f env.

(** [def disassemble_file(filename, outstream=sys.stdout)] *)
Definition disassemble_file_def `{Imports} (fuel : nat) : pyfunction :=
  mkFunction "disassemble_file"
    [("filename", None); ("outstream", Some (VStream sys_stdout))]
    (fun env =>
       match lookup "filename" env, lookup "outstream" env with
       | Some (VStr filename), Some outstream =>
           disassemble_file fuel filename outstream
       | _, _ => raise (TypeError "disassemble_file(): bad argument")
       end).

(** ** [_test] *)

Definition usage `{Imports} : string :=
  ("usage: " ++ file__ ++ " [-|CPython compiled file]" ++ nl)%string.

Definition _test `{Imports} (fuel : nat) (argv : list string) : M unit :=
  let argc := List.length argv in
  fn <- (if negb (Nat.eqb argc 2) then
           if Nat.eqb argc 1 && PYTHON3 then ret file__
           else
             write (VStream sys_stderr) usage ;;;
             raise (SystemExit 2)
         else ret (List.nth 1 argv "")) ;;
  call (disassemble_file_def fuel) [VStr fn] [("native", VBool true)].

(** ** The notions the properties are stated with *)

(** The code objects an object enqueues when it is visited: the [argval]s
    of its decoded instructions that are code objects, one per occurrence,
    in the order of the instruction stream. *)
Definition children `{Imports} (w : world) (opc : OpcodeModule) (co : value)
  : list value :=
  match co with
  | VCode a =>
      match Bytecode_get_instructions (objs w) (opcodes w opc) (objs w a) with
      | Ok instrs => filter iscode (map argval instrs)
      | Raise _ => []
      end
  | _ => []
  end.

(** [references w opc child parent]: [parent] enqueues [child]. *)
Definition references `{Imports} (w : world) (opc : OpcodeModule)
  (child parent : value) : Prop :=
  In child (children w opc parent).

(** Whether both decoding calls of the loop succeed on an object. *)
Definition decodes `{Imports} (w : world) (opc : OpcodeModule) (a : addr)
  : bool :=
  match Bytecode_dis (objs w) (opcodes w opc) (objs w a),
        Bytecode_get_instructions (objs w) (opcodes w opc) (objs w a) with
  | Ok _, Ok _ => true
  | _, _ => false
  end.

(** The successive values of [co = queue.popleft()] in the first [fuel]
    iterations of the loop. *)
Fixpoint visits `{Imports} (fuel : nat)
  (opc : OpcodeModule) (version : pyfloat) (queue : list value)
  (real_out : value) (w : world) : list value :=
  match queue, fuel with
  | co :: queue', S fuel' =>
      co :: match loop_body opc version real_out co queue' w with
            | (Done queue'', w') =>
                visits fuel' opc version queue'' real_out w'
            | _ => []
            end
  | _, _ => []
  end.

(** Breadth-first order by levels: a level, then the level made of the
    children of its members, taken left to right, [depth] levels deep. *)
Fixpoint level_order (next : value -> list value) (depth : nat)
  (level : list value) : list value :=
  match depth, level with
  | S d, _ :: _ => level ++ level_order next d (flat_map next level)
  | _, _ => []
  end.

(** The work-queue discipline alone: pop on the left, append the
    children on the right. *)
Fixpoint queue_order (next : value -> list value) (n : nat)
  (queue : list value) : list value :=
  match queue, n with
  | co :: queue', S n' => co :: queue_order next n' (queue' ++ next co)
  | _, _ => []
  end.

(** The size of the unfolding of an object (of a queue of objects) along
    its references; it exists exactly when the unfolding is finite. *)
Inductive tree_size (next : value -> list value) : value -> nat -> Prop :=
| tree_size_node co n :
    forest_size next (next co) n -> tree_size next co (S n)
with forest_size (next : value -> list value) : list value -> nat -> Prop :=
| forest_size_nil : forest_size next [] 0
| forest_size_cons co q n m :
    tree_size next co n -> forest_size next q m ->
    forest_size next (co :: q) (n + m).

(** Whether the unfolding of an object is less than [depth] levels deep. *)
Fixpoint finite_depth (next : value -> list value) (depth : nat) (co : value)
  : bool :=
  match depth with
  | O => false
  | S d => forallb (finite_depth next d) (next co)
  end.

(** Two worlds with the same code objects and the same opcode tables. *)
Definition same_code (w w' : world) : Prop :=
  objs w' = objs w /\ opcodes w' = opcodes w.

(** A computation that leaves the code objects and the tables alone,
    whatever it ends in. *)
Definition keeps_code {A} (m : M A) : Prop :=
  forall w, same_code w (snd (m w)).

(** Writing several strings to a stream, one after the other. *)
Definition write_all (s : stream) (texts : list string) (w : world) : world :=
  fold_left (fun w' text => append_stream s text w') texts w.

(** ** The helpers as calls with effects

    [disco] and [disco_loop] once more, with the calls into
    [pyxdis.bytecode] and [pyxdis.util] as computations that may do
    anything to the world: what the two functions themselves do to the
    code objects and the tables can then be told from what the helpers
    do. *)
Class Helpers : Type := {
  helper_format_code_info : value -> pyfloat -> M string;
  helper_dis : value -> OpcodeModule -> M string;
  helper_get_instructions : value -> OpcodeModule -> M (list Instruction)
}.

Module Effectful.

Definition loop_body `{Imports} `{Helpers}
  (opc : OpcodeModule) (version : pyfloat) (real_out : value)
  (co : value) (queue : list value) : M (list value) :=
  name <- getattr co_name co ;;
  (if negb (String.eqb name "<module>") then
     wr <- write_method real_out ;;
     info <- helper_format_code_info co version ;;
     wr (nl ++ info ++ nl)%string
   else ret tt) ;;;
  wr <- write_method real_out ;;
  text <- helper_dis co opc ;;
  wr (text ++ nl)%string ;;;
  instrs <- helper_get_instructions co opc ;;
  ret (enqueue_code queue instrs).

Fixpoint disco_loop `{Imports} `{Helpers} (fuel : nat)
  (opc : OpcodeModule) (version : pyfloat) (queue : list value)
  (real_out : value) : M unit :=
  match queue with
  | [] => ret tt
  | co :: queue' =>
      match fuel with
      | O => running
      | S fuel' =>
          queue'' <- loop_body opc version real_out co queue' ;;
          disco_loop fuel' opc version queue'' real_out
      end
  end.

Definition disco `{Imports} `{Helpers} (fuel : nat)
  (version : pyfloat) (co : value) (timestamp : Z) (out : value) : M unit :=
  (if iscode co then ret tt else raise AssertionError) ;;;
  let real_out := py_or out (VStream sys_stdout) in
  write out (program_header version) ;;;
  (if (0 <? timestamp)%Z then
     value <- lift (fromtimestamp timestamp) ;;
     wr <- write_method out ;;
     text <- lift (strftime value timestamp_format) ;;
     wr text
   else ret tt) ;;;
  filename <- getattr co_filename co ;;
  (if truthy (VStr filename) then
     wr <- write_method out ;;
     info <- helper_format_code_info co version ;;
     wr (info ++ nl)%string
   else ret tt) ;;;
  opc <- lift (get_opcode version) ;;
  disco_loop fuel opc version [co] real_out.

End Effectful.

(** Modelled from the spec: [pyxdis.bytecode.Bytecode] and
    [pyxdis.util.format_code_info] are not among the sources; by the
    lifecycle rule of the data model (all entities are read-only once
    constructed) their calls change no code object and no opcode
    table. *)
Definition read_only_helpers `{Helpers} : Prop :=
  (forall co version, keeps_code (helper_format_code_info co version))
  /\ (forall co opc, keeps_code (helper_dis co opc))
  /\ (forall co opc, keeps_code (helper_get_instructions co opc)).

(** The helpers of the first model, which only read. *)
Definition pure_helpers `{Imports} : Helpers := {|
  helper_format_code_info := call_format_code_info;
  helper_dis := call_dis;
  helper_get_instructions := call_get_instructions
|}.

(** A helper that does not keep to the rule: its [dis] renames every
    code object. *)
Definition renaming_helpers `{Imports} : Helpers := {|
  helper_format_code_info := call_format_code_info;
  helper_dis := fun co opc w =>
    (Done "",
     mkWorld
       (fun a =>
          mkCode "renamed" (co_filename (objs w a))
                 (co_firstlineno (objs w a)) (co_code (objs w a))
                 (co_consts (objs w a)) (co_names (objs w a))
                 (co_varnames (objs w a)))
       (opcodes w) (streams w));
  helper_get_instructions := call_get_instructions
|}.

(** What one visit writes: the header of the object, unless its name is
    [<module>], and then its listing. *)
Definition object_header `{Imports} (w : world) (version : pyfloat) (a : addr)
  : string :=
  (nl ++ format_code_info (objs w) (objs w a) version ++ nl)%string.

Definition visit_output `{Imports} (w : world) (opc : OpcodeModule)
  (version : pyfloat) (co : value) : list string :=
  match co with
  | VCode a =>
      (if negb (String.eqb (co_name (objs w a)) "<module>")
       then [object_header w version a] else [])
      ++ match Bytecode_dis (objs w) (opcodes w opc) (objs w a) with
         | Ok text => [(text ++ nl)%string]
         | Raise _ => []
         end
  | _ => []
  end.

(** What [disco] writes before the traversal for the root: its header,
    when its filename is not empty. *)
Definition root_header `{Imports} (w : world) (version : pyfloat) (a : addr)
  : list string :=
  if truthy (VStr (co_filename (objs w a)))
  then [(format_code_info (objs w) (objs w a) version ++ nl)%string]
  else [].

(** The timestamp rendered as a calendar date-time, or the exception
    of the rendering. *)
Definition timestamp_line `{Imports} (timestamp : Z) : result string :=
  match fromtimestamp timestamp with
  | Ok value => strftime value timestamp_format
  | Raise e => Raise e
  end.

(** The lines [disco] writes ahead of everything else, or the exception
    that ends it after the program header. *)
Definition preamble `{Imports} (version : pyfloat) (timestamp : Z)
  : result (list string) :=
  if (0 <? timestamp)%Z then
    match timestamp_line timestamp with
    | Ok line => Ok [program_header version; line]
    | Raise e => Raise e
    end
  else Ok [program_header version].

(** The stream [real_out = out or sys.stdout] is, for a writer [out]. *)
Definition real_stream (s : stream) : stream :=
  if stream_truthy s then s else sys_stdout.

(** The registry in the words of the spec: one table for each revision,
    a revision being a version number and the alternate-runtime flag, and
    a lookup by exact match on the pair.  The tables are those the module
    imports, each under the revision its name gives. *)
Definition registry : list (pyfloat * bool * OpcodeModule) :=
  [ (f2_3, false, opcode_23); (f2_4, false, opcode_24);
    (f2_5, false, opcode_25);
    (f2_6, false, opcode_26); (f2_6, true, opcode_pypy26);
    (f2_7, false, opcode_27); (f2_7, true, opcode_pypy27);
    (f3_0, false, opcode_30); (f3_1, false, opcode_31);
    (f3_2, false, opcode_32); (f3_3, false, opcode_33);
    (f3_4, false, opcode_34); (f3_5, false, opcode_35) ].

Fixpoint registry_lookup (reg : list (pyfloat * bool * OpcodeModule))
  (version : pyfloat) (alternate : bool) : option OpcodeModule :=
  match reg with
  | [] => None
  | (v, alt, table) :: reg' =>
      if SFeqb version v && Bool.eqb alternate alt then Some table
      else registry_lookup reg' version alternate
  end.

(** The table a lookup found, if it found one. *)
Definition found {A} (r : result A) : option A :=
  match r with
  | Ok a => Some a
  | Raise _ => None
  end.

(** Whether a string is among the strings written to a stream. *)
Definition written (text : string) (w : world) (s : stream) : Prop :=
  In text (streams w s).

(** ** A small instance of the imports, for concrete runs

    A decoder after the algorithm of the spec with one-byte operands, a
    table of four opcodes shared by all opcode modules, and plain
    renderings. *)
Definition demo_table : OpcodeTable :=
  fun op =>
    match op with
    | 1 => Some (mkOpcodeDef "POP_TOP" false KNone)
    | 83 => Some (mkOpcodeDef "RETURN_VALUE" false KNone)
    | 100 => Some (mkOpcodeDef "LOAD_CONST" true KConstant)
    | 132 => Some (mkOpcodeDef "MAKE_FUNCTION" true KRawInt)
    | _ => None
    end.

Fixpoint demo_decode (table : OpcodeTable) (co : CodeObject) (off : nat)
  (code : list nat) : result (list Instruction) :=
  match code with
  | [] => Ok []
  | op :: rest =>
      match table op with
      | None => Raise (DecodeError "unknown opcode")
      | Some d =>
          if hasArgument d then
            match rest with
            | [] => Raise (DecodeError "truncated instruction")
            | operand :: rest' =>
                match
                  match opKind d with
                  | KConstant => nth_error (co_consts co) operand
                  | KName => option_map VStr (nth_error (co_names co) operand)
                  | KLocal =>
                      option_map VStr (nth_error (co_varnames co) operand)
                  | KRelativeJump => Some (VInt (Z.of_nat (off + 2 + operand)))
                  | _ => Some (VInt (Z.of_nat operand))
                  end
                with
                | None => Raise (DecodeError "operand out of range")
                | Some v =>
                    match demo_decode table co (off + 2) rest' with
                    | Ok instrs =>
                        Ok (mkInstr off (mnemonic d)
                              (Some (Z.of_nat operand)) v :: instrs)
                    | Raise e => Raise e
                    end
                end
            end
          else
            match demo_decode table co (off + 1) rest with
            | Ok instrs => Ok (mkInstr off (mnemonic d) None VNone :: instrs)
            | Raise e => Raise e
            end
      end
  end.

Definition demo_dis (table : OpcodeTable) (co : CodeObject) : result string :=
  match demo_decode table co 0 (co_code co) with
  | Ok instrs => Ok (String.concat nl (map opname instrs))
  | Raise e => Raise e
  end.

(** [str] on the floats of the concrete runs. *)
Definition demo_str_float (v : pyfloat) : string :=
  if SFeqb v f2_5 then "2.5"
  else if SFeqb v f2_7 then "2.7"
  else if SFeqb v f3_4 then "3.4"
  else if SFeqb v f9_9 then "9.9"
  else "?".

(** [datetime.datetime.fromtimestamp] of the concrete runs: the years 1
    to 9999 in seconds, in UTC; the seconds stand for the date. *)
Definition demo_fromtimestamp (timestamp : Z) : result Z :=
  if ((-62135596800 <=? timestamp) && (timestamp <? 253402300800))%Z
  then Ok timestamp
  else Raise (ValueError "year is out of range").

Definition demo_imports : Imports := {|
  IS_PYPY := false;
  PYTHON_VERSION := f2_7;
  PYTHON3 := false;
  file__ := "main.py";
  str_float := demo_str_float;
  datetime := Z;
  fromtimestamp := demo_fromtimestamp;
  strftime := fun _ fmt => Ok fmt;
  format_code_info := fun _ co _ =>
    ("# Method Name: " ++ co_name co ++ nl ++
     "# Filename: " ++ co_filename co)%string;
  Bytecode_dis := fun _ table co => demo_dis table co;
  Bytecode_get_instructions := fun _ table co =>
    demo_decode table co 0 (co_code co);
  check_object_path := fun path => ret path;
  load_module := fun _ => raise (DecodeError "no such file")
|}.

(** The same imports under the alternate runtime. *)
Definition demo_imports_pypy : Imports := {|
  IS_PYPY := true;
  PYTHON_VERSION := f2_7;
  PYTHON3 := false;
  file__ := "main.py";
  str_float := demo_str_float;
  datetime := Z;
  fromtimestamp := demo_fromtimestamp;
  strftime := fun _ fmt => Ok fmt;
  format_code_info := @format_code_info demo_imports;
  Bytecode_dis := @Bytecode_dis demo_imports;
  Bytecode_get_instructions := @Bytecode_get_instructions demo_imports;
  check_object_path := @check_object_path demo_imports;
  load_module := @load_module demo_imports
|}.

(** The object store of the concrete runs:
    0 is a module whose instructions load object 2, object 1 and object 2
    again, while its constants list 1 before 2;
    1 and 2 are functions without nested code;
    3 is an object that loads itself;
    4 is a function without a filename. *)
Definition demo_objs (a : addr) : CodeObject :=
  match a with
  | 0 => mkCode "<module>" "m.py" 1 [100; 1; 100; 0; 100; 1; 83]
                [VCode 1; VCode 2; VNone] [] []
  | 1 => mkCode "f" "m.py" 2 [83] [] [] []
  | 2 => mkCode "g" "m.py" 5 [83] [] [] []
  | 3 => mkCode "loop" "m.py" 9 [100; 0; 83] [VCode 3] [] []
  | 4 => mkCode "h" "" 1 [83] [] [] []
  | _ => mkCode "<module>" "" 0 [] [] [] []
  end.

Definition demo_world : world :=
  mkWorld demo_objs (fun _ => demo_table) (fun _ => []).

(** A second object store, with an object that does not decode:
    0 is a module that loads object 2 and then object 1;
    1 is a function; 2 ends in the middle of an instruction. *)
Definition broken_objs (a : addr) : CodeObject :=
  match a with
  | 0 => mkCode "<module>" "m.py" 1 [100; 1; 100; 0; 83]
                [VCode 1; VCode 2] [] []
  | 1 => mkCode "f" "m.py" 2 [83] [] [] []
  | 2 => mkCode "g" "m.py" 5 [1; 100] [VNone] [] []
  | _ => mkCode "<module>" "" 0 [] [] [] []
  end.

Definition broken_world : world :=
  mkWorld broken_objs (fun _ => demo_table) (fun _ => []).

(** The float literals [get_opcode] compares the version with. *)
Definition supported_versions : list pyfloat :=
  [f2_3; f2_4; f2_5; f2_6; f2_7; f3_0; f3_1; f3_2; f3_3; f3_4; f3_5].

(** The table [get_opcode] returns for each of them. *)
Definition version_tables `{Imports} : list (pyfloat * OpcodeModule) :=
  [ (f2_3, opcode_23); (f2_4, opcode_24); (f2_5, opcode_25);
    (f2_6, if IS_PYPY then opcode_pypy26 else opcode_26);
    (f2_7, if IS_PYPY then opcode_pypy27 else opcode_27);
    (f3_0, opcode_30); (f3_1, opcode_31); (f3_2, opcode_32);
    (f3_3, opcode_33); (f3_4, opcode_34); (f3_5, opcode_35) ].

(** * Properties *)

(** ** Streams *)

Lemma stream_eqb_refl (s : stream) : stream_eqb s s = true.
Proof. destruct s; simpl; auto using Nat.eqb_refl. Qed.

Lemma stream_eqb_eq (a b : stream) : stream_eqb a b = true <-> a = b.
Proof.
  split.
  - destruct a, b; simpl; intros E; try discriminate; auto;
      apply Nat.eqb_eq in E; now subst.
  - intros ->. apply stream_eqb_refl.
Qed.

Lemma streams_append_same s text w :
  streams (append_stream s text w) s = streams w s ++ [text].
Proof. simpl. now rewrite stream_eqb_refl. Qed.

Lemma streams_append_other s s' text w :
  s' <> s -> streams (append_stream s text w) s' = streams w s'.
Proof.
  intros N. simpl. destruct (stream_eqb s' s) eqn:E; auto.
  apply stream_eqb_eq in E. contradiction.
Qed.

Lemma write_all_app s l1 l2 w :
  write_all s (l1 ++ l2) w = write_all s l2 (write_all s l1 w).
Proof. unfold write_all. apply fold_left_app. Qed.

Lemma write_all_cons s t l w :
  write_all s (t :: l) w = write_all s l (append_stream s t w).
Proof. reflexivity. Qed.

Lemma objs_write_all s texts w : objs (write_all s texts w) = objs w.
Proof.
  revert w. induction texts as [|t texts IH]; intros w; auto.
  rewrite write_all_cons, IH. reflexivity.
Qed.

Lemma opcodes_write_all s texts w : opcodes (write_all s texts w) = opcodes w.
Proof.
  revert w. induction texts as [|t texts IH]; intros w; auto.
  rewrite write_all_cons, IH. reflexivity.
Qed.

Lemma streams_write_all s texts w :
  streams (write_all s texts w) s = streams w s ++ texts.
Proof.
  revert w. induction texts as [|t texts IH]; intros w.
  - simpl. now rewrite app_nil_r.
  - rewrite write_all_cons, IH, streams_append_same.
    now rewrite <- app_assoc.
Qed.

Lemma streams_write_all_other s s' texts w :
  s' <> s -> streams (write_all s texts w) s' = streams w s'.
Proof.
  intros N. revert w. induction texts as [|t texts IH]; intros w; auto.
  rewrite write_all_cons, IH. now apply streams_append_other.
Qed.

(** ** The queue *)

Lemma enqueue_code_app queue instrs :
  enqueue_code queue instrs = queue ++ filter iscode (map argval instrs).
Proof.
  unfold enqueue_code. revert queue.
  induction instrs as [|i instrs IH]; intros queue; simpl.
  - now rewrite app_nil_r.
  - rewrite IH. destruct (iscode (argval i)); auto.
    now rewrite <- app_assoc.
Qed.

(** ** One iteration of the loop *)

(** Closes one path through an iteration: the store is as it was, the
    path does not end in [Running], and a completed path has enqueued. *)
Ltac frame_case :=
  repeat split; try reflexivity; try discriminate;
  first [ intros ? [= <-]; apply enqueue_code_app | intros ? [=] ].

Section Loop.
Context `{Imports}.
Variables (opc : OpcodeModule) (version : pyfloat).

Lemma same_code_refl w : same_code w w.
Proof. split; reflexivity. Qed.

Lemma same_code_trans w1 w2 w3 :
  same_code w1 w2 -> same_code w2 w3 -> same_code w1 w3.
Proof. intros [A B] [C D]. split; congruence. Qed.

Lemma same_code_write_all s texts w : same_code w (write_all s texts w).
Proof. split; [apply objs_write_all | apply opcodes_write_all]. Qed.

Lemma children_same w w' co :
  same_code w w' -> children w' opc co = children w opc co.
Proof. intros [E1 E2]. unfold children. now rewrite E1, E2. Qed.

Lemma visit_output_same w w' co :
  same_code w w' ->
  visit_output w' opc version co = visit_output w opc version co.
Proof.
  intros [E1 E2]. unfold visit_output, object_header. now rewrite E1, E2.
Qed.

Lemma decodes_same w w' a :
  same_code w w' -> decodes w' opc a = decodes w opc a.
Proof. intros [E1 E2]. unfold decodes. now rewrite E1, E2. Qed.

(** The children of any object are code objects. *)
Lemma children_iscode w co : Forall (fun v => iscode v = true) (children w opc co).
Proof.
  unfold children. destruct co; try constructor.
  destruct Bytecode_get_instructions; try constructor.
  apply Forall_forall. intros v Hin. now apply filter_In in Hin.
Qed.

(** An iteration never leaves the loop running, never touches the code
    objects or the tables, and when it completes the queue has grown by
    the children of the object it visited. *)
Lemma loop_body_frame real_out co queue w :
  same_code w (snd (loop_body opc version real_out co queue w))
  /\ fst (loop_body opc version real_out co queue w) <> Running
  /\ forall queue',
      fst (loop_body opc version real_out co queue w) = Done queue' ->
      queue' = queue ++ children w opc co.
Proof.
  unfold loop_body, bind, getattr, write_method, call_format_code_info,
    call_dis, call_get_instructions, children, same_code, raise, ret, lift.
  destruct co; simpl; try solve [frame_case].
  destruct (negb (co_name (objs w a) =? "<module>")%string);
    destruct real_out; simpl; try solve [frame_case];
    destruct (Bytecode_dis (objs w) (opcodes w opc) (objs w a));
    simpl; unfold raise, ret; try solve [frame_case];
    destruct (Bytecode_get_instructions (objs w) (opcodes w opc) (objs w a));
    simpl; unfold raise, ret; solve [frame_case].
Qed.

(** What an iteration writes when the output is a stream. *)
Lemma loop_body_output s co queue w :
  snd (loop_body opc version (VStream s) co queue w)
  = write_all s (visit_output w opc version co) w.
Proof.
  unfold loop_body, bind, getattr, write_method, call_format_code_info,
    call_dis, call_get_instructions, visit_output, raise, ret, lift.
  destruct co; simpl; try reflexivity.
  destruct (negb (co_name (objs w a) =? "<module>")%string); simpl;
    destruct (Bytecode_dis (objs w) (opcodes w opc) (objs w a));
    simpl; unfold raise, ret; try reflexivity;
    destruct (Bytecode_get_instructions (objs w) (opcodes w opc) (objs w a));
    reflexivity.
Qed.

(** An iteration on a code object that decodes completes. *)
Lemma loop_body_done s a queue w :
  decodes w opc a = true ->
  fst (loop_body opc version (VStream s) (VCode a) queue w)
  = Done (queue ++ children w opc (VCode a)).
Proof.
  unfold decodes, loop_body, bind, getattr, write_method,
    call_format_code_info, call_dis, call_get_instructions, children,
    raise, ret, lift.
  simpl.
  destruct (negb (co_name (objs w a) =? "<module>")%string); simpl;
    destruct (Bytecode_dis (objs w) (opcodes w opc) (objs w a));
    simpl; try discriminate;
    destruct (Bytecode_get_instructions (objs w) (opcodes w opc) (objs w a));
    simpl; try discriminate; intros _; now rewrite enqueue_code_app.
Qed.
End Loop.

(** ** Breadth-first order of a work queue *)

Section QueueOrder.
Variable next : value -> list value.

Lemma level_order_cons d x l :
  level_order next (S d) (x :: l)
  = (x :: l) ++ level_order next d (flat_map next (x :: l)).
Proof. reflexivity. Qed.

Lemma level_order_nil d : level_order next d [] = [].
Proof. destruct d; reflexivity. Qed.

(** One more level does not change the first [m] elements of [n]
    levels, for [m <= n]: every level before the last has a member. *)
Lemma level_order_firstn n :
  forall m level, m <= n ->
    firstn m (level_order next n level)
    = firstn m (level_order next (S n) level).
Proof.
  induction n as [|n IH]; intros m level Hm.
  - assert (m = 0) as -> by lia. reflexivity.
  - destruct level as [|x l].
    + now rewrite !level_order_nil.
    + rewrite (level_order_cons (S n)), (level_order_cons n).
      rewrite !firstn_app. f_equal.
      apply IH. simpl List.length. lia.
Qed.

(** The queue holds what is left of the current level, [q1], followed
    by the part of the next level enqueued so far, [cs]. *)
Lemma queue_order_levels n :
  forall q1 cs,
    queue_order next n (q1 ++ cs)
    = firstn n (q1 ++ level_order next n (cs ++ flat_map next q1)).
Proof.
  induction n as [|n IH]; intros q1 cs.
  - destruct (q1 ++ cs); reflexivity.
  - destruct q1 as [|a q1].
    + simpl app at 1. simpl flat_map. rewrite app_nil_r.
      destruct cs as [|c cs]; [reflexivity|].
      rewrite level_order_cons. simpl.
      f_equal. apply IH.
    + simpl. f_equal. rewrite <- app_assoc, IH.
      rewrite !firstn_app. f_equal.
      rewrite <- app_assoc. apply level_order_firstn. lia.
Qed.

(** A work queue seeded with one object visits in level order. *)
Lemma queue_order_breadth_first n root :
  queue_order next n [root] = firstn n (level_order next n [root]).
Proof. apply (queue_order_levels n [] [root]). Qed.

(** *** Finite unfoldings *)

Lemma forest_size_zero q : forest_size next q 0 -> q = [].
Proof.
  inversion 1 as [|co q' n m Ht Hf E]; auto.
  destruct Ht. discriminate.
Qed.

Lemma forest_size_app q1 q2 n m :
  forest_size next q1 n -> forest_size next q2 m ->
  forest_size next (q1 ++ q2) (n + m).
Proof.
  induction 1 as [|co q k l Ht Hf IH]; intros H2; simpl; auto.
  rewrite <- Nat.add_assoc. constructor; auto.
Qed.

Lemma forest_size_exists l :
  (forall co, In co l -> exists n, tree_size next co n) ->
  exists m, forest_size next l m.
Proof.
  induction l as [|co l IH]; intros Hl.
  - exists 0. constructor.
  - destruct (Hl co (or_introl eq_refl)) as [n Hn].
    destruct IH as [m Hm]; [intros; apply Hl; now right|].
    exists (n + m). now constructor.
Qed.

(** An object without an infinite chain of references below it has a
    finite unfolding. *)
Lemma Acc_tree_size co :
  Acc (fun child parent => In child (next parent)) co ->
  exists n, tree_size next co n.
Proof.
  induction 1 as [co _ IH].
  destruct (forest_size_exists (next co)) as [m Hm]; [exact IH|].
  exists (S m). now constructor.
Qed.

Lemma finite_depth_Acc d :
  forall co, finite_depth next d co = true ->
             Acc (fun child parent => In child (next parent)) co.
Proof.
  induction d as [|d IH]; simpl; intros co E; [discriminate|].
  constructor. intros y Hy. apply IH.
  rewrite forallb_forall in E. now apply E.
Qed.
End QueueOrder.

(** ** The loop *)

Section Traversal.
Context `{Imports}.
Variables (opc : OpcodeModule) (version : pyfloat).

Lemma disco_loop_step fuel co queue real_out w :
  disco_loop (S fuel) opc version (co :: queue) real_out w
  = match loop_body opc version real_out co queue w with
    | (Done queue', w') => disco_loop fuel opc version queue' real_out w'
    | (Raised e, w') => (Raised e, w')
    | (Running, w') => (Running, w')
    end.
Proof. reflexivity. Qed.

Lemma disco_loop_same_code fuel :
  forall queue real_out w,
    same_code w (snd (disco_loop fuel opc version queue real_out w)).
Proof.
  induction fuel as [|fuel IH]; intros [|co queue] real_out w;
    try apply same_code_refl.
  rewrite disco_loop_step.
  destruct (loop_body_frame opc version real_out co queue w) as (F & _ & _).
  destruct (loop_body opc version real_out co queue w) as [[q'|e|] w'];
    simpl in *; auto.
  eapply same_code_trans; [exact F | apply IH].
Qed.

(** The loop writes the output of its visits, in the order of the
    visits. *)
Lemma disco_loop_output s fuel :
  forall queue w,
    snd (disco_loop fuel opc version queue (VStream s) w)
    = write_all s
        (flat_map (visit_output w opc version)
                  (visits fuel opc version queue (VStream s) w)) w.
Proof.
  induction fuel as [|fuel IH]; intros [|co queue] w; try reflexivity.
  rewrite disco_loop_step. simpl visits. simpl flat_map.
  rewrite write_all_app.
  pose proof (loop_body_output opc version s co queue w) as Hout.
  destruct (loop_body_frame opc version (VStream s) co queue w)
    as (F & _ & _).
  destruct (loop_body opc version (VStream s) co queue w) as [[q'|e|] w'];
    simpl in *; subst w'; try reflexivity.
  rewrite IH. f_equal. apply flat_map_ext.
  intros co'. now apply visit_output_same.
Qed.

(** When every object decodes, the visits follow the queue discipline
    over the children of the objects. *)
Lemma visits_queue_order next s fuel :
  forall queue w,
    (forall co, children w opc co = next co) ->
    (forall a, decodes w opc a = true) ->
    Forall (fun v => iscode v = true) queue ->
    visits fuel opc version queue (VStream s) w
    = queue_order next fuel queue.
Proof.
  induction fuel as [|fuel IH]; intros [|co queue] w Hn Hd Hq;
    try reflexivity.
  simpl. f_equal.
  inversion Hq as [|? ? Hco Hq']; subst.
  destruct co; try discriminate.
  pose proof (loop_body_done opc version s a queue w (Hd a)) as Hdone.
  destruct (loop_body_frame opc version (VStream s) (VCode a) queue w)
    as (F & _ & _).
  destruct (loop_body opc version (VStream s) (VCode a) queue w)
    as [r w']; cbn [fst snd] in *; subst r.
  rewrite Hn. apply IH.
  - intros co. rewrite <- Hn. now apply children_same.
  - intros b. rewrite <- (Hd b). now apply decodes_same.
  - apply Forall_app. split; auto.
    rewrite <- Hn. apply children_iscode.
Qed.

(** A queue whose unfolding has [n] nodes is emptied, or the loop is
    left by an exception, within [n] iterations. *)
Lemma disco_loop_bounded next fuel :
  forall queue n real_out w,
    (forall co, children w opc co = next co) ->
    forest_size next queue n -> n <= fuel ->
    fst (disco_loop fuel opc version queue real_out w) <> Running.
Proof.
  induction fuel as [|fuel IH]; intros queue n real_out w Hn Hf Hle.
  - assert (n = 0) as -> by lia.
    apply forest_size_zero in Hf. subst. discriminate.
  - destruct queue as [|co queue]; [discriminate|].
    rewrite disco_loop_step.
    destruct (loop_body_frame opc version real_out co queue w)
      as (F & Hrun & Hq).
    destruct (loop_body opc version real_out co queue w) as [[q'|e|] w'];
      cbn [fst snd] in *; try discriminate; try congruence.
    rewrite (Hq q' eq_refl), Hn.
    inversion Hf as [|? ? k m Ht Hf' E]; subst.
    destruct Ht as [co k Hk].
    apply (IH _ (m + k)).
    + intros co'. rewrite <- Hn. now apply children_same.
    + now apply forest_size_app.
    + lia.
Qed.

(** More fuel does not change a run that has ended. *)
Lemma disco_loop_more_fuel fuel :
  forall queue real_out w,
    fst (disco_loop fuel opc version queue real_out w) <> Running ->
    disco_loop (S fuel) opc version queue real_out w
    = disco_loop fuel opc version queue real_out w.
Proof.
  induction fuel as [|fuel IH]; intros [|co queue] real_out w Hr;
    try reflexivity.
  - exfalso. apply Hr. reflexivity.
  - rewrite (disco_loop_step (S fuel)), (disco_loop_step fuel).
    rewrite disco_loop_step in Hr.
    destruct (loop_body opc version real_out co queue w) as [[q'|e|] w'];
      auto.
Qed.
End Traversal.

(** ** Computations that keep the code objects and the tables *)

Lemma keeps_ret {A} (a : A) : keeps_code (ret a).
Proof. intros w. split; reflexivity. Qed.

Lemma keeps_raise {A} (e : exn) : keeps_code (@raise A e).
Proof. intros w. split; reflexivity. Qed.

Lemma keeps_lift {A} (r : result A) : keeps_code (lift r).
Proof. destruct r; [apply keeps_ret | apply keeps_raise]. Qed.

Lemma keeps_bind {A B} (m : M A) (k : A -> M B) :
  keeps_code m -> (forall a, keeps_code (k a)) -> keeps_code (bind m k).
Proof.
  intros Hm Hk w. unfold bind. specialize (Hm w).
  destruct (m w) as [[a|e|] w1]; simpl in *; auto.
  destruct Hm as [A1 A2]. destruct (Hk a w1) as [B1 B2].
  split; congruence.
Qed.

Lemma keeps_getattr {A} (f : CodeObject -> A) co : keeps_code (getattr f co).
Proof. destruct co; intros w; split; reflexivity. Qed.

Lemma keeps_write out text : keeps_code (write out text).
Proof. destruct out; intros w; split; reflexivity. Qed.

Lemma keeps_append s text :
  keeps_code (fun w => (Done tt, append_stream s text w)).
Proof. intros w; split; reflexivity. Qed.

Lemma keeps_write_method {B} out (k : (string -> M unit) -> M B) :
  (forall s, keeps_code (k (fun text w => (Done tt, append_stream s text w)))) ->
  keeps_code (bind (write_method out) k).
Proof.
  intros Hk. destruct out; try (intros w; split; reflexivity).
  intros w. apply (Hk s w).
Qed.

Lemma keeps_format_code_info `{Imports} co version :
  keeps_code (call_format_code_info co version).
Proof. destruct co; intros w; split; reflexivity. Qed.

Lemma keeps_if {A} (b : bool) (m1 m2 : M A) :
  keeps_code m1 -> keeps_code m2 -> keeps_code (if b then m1 else m2).
Proof. now destruct b. Qed.

(** ** Floats *)

(** [==] against a positive finite literal holds for that number only. *)
Lemma SFeqb_finite_eq v m e :
  SFeqb v (S754_finite false m e) = true -> v = S754_finite false m e.
Proof.
  unfold SFeqb, SFcompare.
  destruct v as [[]|[]| |[] m' e']; try discriminate.
  destruct (Z.compare_spec e' e); try discriminate. subst.
  change (Pos.compare_cont Eq m' m) with (Pos.compare m' m).
  destruct (Pos.compare_spec m' m); try discriminate. now subst.
Qed.

(** ** [disco] *)

Section Disco.
Context `{Imports}.

Lemma real_stream_truthy s : stream_truthy s = true -> real_stream s = s.
Proof. unfold real_stream. now intros ->. Qed.

Lemma falsy_not_stdout s : stream_truthy s = false -> s <> sys_stdout.
Proof. now intros E ->. Qed.

(** [disco] on a code object and a writer: the preamble, the header of
    the root, the table lookup, the loop on [out or sys.stdout]. *)
Lemma disco_run fuel version a timestamp s w :
  disco fuel version (VCode a) timestamp (VStream s) w
  = match preamble version timestamp with
    | Raise e => (Raised e, append_stream s (program_header version) w)
    | Ok lines =>
        match get_opcode version with
        | Ok opc =>
            disco_loop fuel opc version [VCode a] (VStream (real_stream s))
              (write_all s (lines ++ root_header w version a) w)
        | Raise e =>
            (Raised e, write_all s (lines ++ root_header w version a) w)
        end
    end.
Proof.
  unfold disco, preamble, timestamp_line, root_header, py_or, real_stream,
    bind, write, write_method, getattr, call_format_code_info, ret, raise,
    lift, bind.
  simpl.
  destruct (0 <? timestamp)%Z; simpl.
  - destruct (fromtimestamp timestamp) as [value|e]; simpl;
      [|reflexivity].
    destruct (strftime value timestamp_format) as [line|e]; simpl;
      [|reflexivity].
    destruct (negb (co_filename (objs w a) =? "")%string); simpl;
      destruct (get_opcode version); simpl;
      destruct (stream_truthy s); reflexivity.
  - destruct (negb (co_filename (objs w a) =? "")%string); simpl;
      destruct (get_opcode version); simpl;
      destruct (stream_truthy s); reflexivity.
Qed.

Lemma disco_keeps_code fuel version co timestamp out :
  keeps_code (disco fuel version co timestamp out).
Proof.
  unfold disco.
  repeat first
    [ apply keeps_write
    | apply keeps_append
    | apply keeps_write_method; intros ?
    | apply keeps_bind; [|intros ?]
    | apply keeps_if
    | apply keeps_ret
    | apply keeps_raise
    | apply keeps_lift
    | apply keeps_getattr
    | apply keeps_format_code_info ].
  intros w. apply disco_loop_same_code.
Qed.

(** What an iteration ends in depends on the code objects and the
    tables only. *)
Lemma loop_body_fst_same opc version s co queue w w' :
  same_code w w' ->
  fst (loop_body opc version (VStream s) co queue w')
  = fst (loop_body opc version (VStream s) co queue w).
Proof.
  intros [E1 E2].
  unfold loop_body, bind, getattr, write_method, call_format_code_info,
    call_dis, call_get_instructions, raise, ret, lift.
  destruct co; simpl; try reflexivity.
  rewrite ?E1, ?E2.
  destruct (negb (co_name (objs w a) =? "<module>")%string); simpl;
    rewrite ?E1, ?E2;
    destruct (Bytecode_dis (objs w) (opcodes w opc) (objs w a));
    simpl; rewrite ?E1, ?E2; try reflexivity;
    destruct (Bytecode_get_instructions (objs w) (opcodes w opc) (objs w a));
    reflexivity.
Qed.

Lemma visits_same opc version s fuel :
  forall queue w w',
    same_code w w' ->
    visits fuel opc version queue (VStream s) w'
    = visits fuel opc version queue (VStream s) w.
Proof.
  induction fuel as [|fuel IH]; intros [|co queue] w w' Hs; try reflexivity.
  simpl. f_equal.
  pose proof (loop_body_fst_same opc version s co queue w w' Hs) as Hfst.
  destruct (loop_body_frame opc version (VStream s) co queue w)
    as (F & _ & _).
  destruct (loop_body_frame opc version (VStream s) co queue w')
    as (F' & _ & _).
  destruct (loop_body opc version (VStream s) co queue w) as [r1 w1].
  destruct (loop_body opc version (VStream s) co queue w') as [r2 w2].
  cbn [fst snd] in *. subst r2.
  destruct r1; try reflexivity.
  transitivity (visits fuel opc version a (VStream s) w).
  - apply IH. exact (same_code_trans _ _ _ Hs F').
  - symmetry. now apply IH.
Qed.

Lemma disco_loop_other_stream opc version s s' fuel queue w :
  s' <> s ->
  streams (snd (disco_loop fuel opc version queue (VStream s) w)) s'
  = streams w s'.
Proof.
  intros Hne. rewrite disco_loop_output.
  now apply streams_write_all_other.
Qed.

(** Everything [disco] writes to the writer it is given. *)
Lemma disco_output fuel version a timestamp s w :
  streams (snd (disco fuel version (VCode a) timestamp (VStream s) w)) s
  = streams w s
    ++ match preamble version timestamp with
       | Raise _ => [program_header version]
       | Ok lines =>
           lines
           ++ root_header w version a
           ++ match get_opcode version with
              | Ok opc =>
                  if stream_truthy s
                  then flat_map (visit_output w opc version)
                         (visits fuel opc version [VCode a] (VStream s) w)
                  else []
              | Raise _ => []
              end
       end.
Proof.
  rewrite disco_run.
  destruct (preamble version timestamp) as [lines|e]; cbn [snd].
  - destruct (get_opcode version) as [opc|e]; cbn [snd].
    + destruct (stream_truthy s) eqn:T.
      * rewrite (real_stream_truthy s T).
        rewrite disco_loop_output, !streams_write_all, <- !app_assoc.
        do 3 f_equal.
        rewrite (visits_same opc version s fuel _ w)
          by apply same_code_write_all.
        apply flat_map_ext. intros co.
        apply visit_output_same, same_code_write_all.
      * unfold real_stream. rewrite T.
        rewrite disco_loop_other_stream by now apply falsy_not_stdout.
        now rewrite streams_write_all, app_nil_r.
    + now rewrite streams_write_all, app_nil_r.
  - apply streams_append_same.
Qed.

(** The only exception [get_opcode] raises. *)
Lemma get_opcode_raise version e :
  get_opcode version = Raise e ->
  e = TypeError
        (str_float version ++ " is not a Python version I know about").
Proof.
  unfold get_opcode.
  repeat match goal with
         | |- context [if ?b then _ else _] => destruct b
         end; intros [=]; congruence.
Qed.

(** The visits are a prefix of what the queue discipline gives: the loop
    goes through the queue in order until an iteration raises. *)
Lemma visits_prefix opc version next s fuel :
  forall queue w,
    (forall co, children w opc co = next co) ->
    exists k,
      k <= fuel
      /\ visits fuel opc version queue (VStream s) w
         = firstn k (queue_order next fuel queue).
Proof.
  induction fuel as [|fuel IH]; intros [|co queue] w Hn;
    try (exists 0; split; [lia | reflexivity]).
  destruct (loop_body_frame opc version (VStream s) co queue w)
    as (F & _ & Hdone).
  cbn [visits queue_order].
  destruct (loop_body opc version (VStream s) co queue w) as [[q'|e|] w'];
    cbn [fst snd] in *;
    try (exists 1; split; [lia | reflexivity]).
  rewrite (Hdone q' eq_refl), Hn.
  destruct (IH (queue ++ next co) w') as (k & Hk & E).
  { intros co'. rewrite <- Hn. now apply children_same. }
  exists (S k). split; [lia|]. cbn [firstn]. now rewrite E.
Qed.

(** When no iteration raises, it is all of it. *)
Lemma visits_no_raise opc version next s fuel :
  forall queue w,
    (forall co, children w opc co = next co) ->
    (forall e,
        fst (disco_loop fuel opc version queue (VStream s) w) <> Raised e) ->
    visits fuel opc version queue (VStream s) w
    = queue_order next fuel queue.
Proof.
  induction fuel as [|fuel IH]; intros [|co queue] w Hn Hr;
    try reflexivity.
  rewrite disco_loop_step in Hr.
  destruct (loop_body_frame opc version (VStream s) co queue w)
    as (F & Hrun & Hdone).
  cbn [visits queue_order].
  destruct (loop_body opc version (VStream s) co queue w) as [[q'|e|] w'];
    cbn [fst snd] in *.
  - rewrite (Hdone q' eq_refl), Hn. f_equal.
    apply IH.
    + intros co'. rewrite <- Hn. now apply children_same.
    + now rewrite (Hdone q' eq_refl), Hn in Hr.
  - exfalso. now apply (Hr e).
  - exfalso. now apply Hrun.
Qed.
End Disco.

(** ** The effectful model *)

Section Effects.
Context `{Imports} `{Helpers}.
Hypothesis Hro : read_only_helpers.

Lemma effectful_loop_body_keeps opc version real_out co queue :
  keeps_code (Effectful.loop_body opc version real_out co queue).
Proof.
  destruct Hro as (Hf & Hd & Hg).
  unfold Effectful.loop_body.
  repeat first
    [ apply keeps_append
    | apply keeps_write_method; intros ?
    | apply keeps_bind; [|intros ?]
    | apply keeps_if
    | apply keeps_ret
    | apply keeps_getattr
    | apply Hf | apply Hd | apply Hg ].
Qed.

Lemma effectful_disco_loop_keeps opc version real_out fuel :
  forall queue,
    keeps_code (Effectful.disco_loop fuel opc version queue real_out).
Proof.
  induction fuel as [|fuel IH]; intros [|co queue];
    try apply keeps_ret; try (intros w; split; reflexivity).
  cbn [Effectful.disco_loop].
  apply keeps_bind; [apply effectful_loop_body_keeps | intros ?; apply IH].
Qed.

Lemma effectful_disco_keeps fuel version co timestamp out :
  keeps_code (Effectful.disco fuel version co timestamp out).
Proof.
  destruct Hro as (Hf & Hd & Hg).
  unfold Effectful.disco.
  repeat first
    [ apply keeps_write
    | apply keeps_append
    | apply keeps_write_method; intros ?
    | apply keeps_bind; [|intros ?]
    | apply keeps_if
    | apply keeps_ret
    | apply keeps_raise
    | apply keeps_lift
    | apply keeps_getattr
    | apply Hf
    | apply effectful_disco_loop_keeps ].
Qed.
End Effects.

(** With the helpers that only read, the effectful model is the first
    model. *)
Lemma effectful_disco_loop_pure `{Imports} opc version real_out fuel :
  forall queue w,
    @Effectful.disco_loop _ pure_helpers fuel opc version queue real_out w
    = disco_loop fuel opc version queue real_out w.
Proof.
  induction fuel as [|fuel IH]; intros [|co queue] w; try reflexivity.
  cbn [Effectful.disco_loop disco_loop]. unfold bind.
  change (@Effectful.loop_body _ pure_helpers opc version real_out co queue w)
    with (loop_body opc version real_out co queue w).
  destruct (loop_body opc version real_out co queue w) as [[q'|e|] w'];
    auto.
Qed.

Lemma bind_ext {A B} (m : M A) (k1 k2 : A -> M B) w :
  (forall a w', k1 a w' = k2 a w') -> bind m k1 w = bind m k2 w.
Proof.
  intros Hk. unfold bind. destruct (m w) as [[a|e|] w']; auto.
Qed.

Lemma effectful_disco_pure `{Imports} fuel version co timestamp out w :
  @Effectful.disco _ pure_helpers fuel version co timestamp out w
  = disco fuel version co timestamp out w.
Proof.
  unfold Effectful.disco, disco. cbv zeta.
  repeat (apply bind_ext; intros).
  apply effectful_disco_loop_pure.
Qed.

Lemma pure_helpers_read_only `{Imports} : @read_only_helpers pure_helpers.
Proof.
  unfold read_only_helpers. split; [|split]; intros co x w;
    destruct co; try (split; reflexivity).
  - exact (keeps_lift (Bytecode_dis (objs w) (opcodes w x) (objs w a)) w).
  - exact (keeps_lift
             (Bytecode_get_instructions (objs w) (opcodes w x) (objs w a)) w).
Qed.

(** A helper that renames the objects shows through [disco]: the
    computations of the effectful model can change the code objects. *)
Lemma renaming_helpers_mutate :
  co_name (objs (snd (@Effectful.disco demo_imports
                        (@renaming_helpers demo_imports)
                        5 f2_7 (VCode 0) 0 (VStream sys_stdout)
                        demo_world)) 0)
  = "renamed".
Proof. reflexivity. Qed.

(** ** The call of [_test] *)

(** [disassemble_file(fn, native=True)] never reaches the body: the
    signature has no parameter [native]. *)
Lemma call_native `{Imports} fuel fn w :
  call (disassemble_file_def fuel) [VStr fn] [("native", VBool true)] w
  = (Raised
       (TypeError
          "disassemble_file() got an unexpected keyword argument 'native'"),
     w).
Proof. reflexivity. Qed.

(** ** An object that loads itself *)

Section Cyclic.
#[local] Existing Instance demo_imports.

Lemma cyclic_queue_runs fuel :
  forall queue w,
    same_code demo_world w ->
    queue <> [] ->
    Forall (eq (VCode 3)) queue ->
    fst (@disco_loop demo_imports fuel opcode_27 f2_7 queue
           (VStream sys_stdout) w) = Running.
Proof.
  induction fuel as [|fuel IH]; intros [|co queue] w Hs Hne Hq;
    try contradiction; try reflexivity.
  rewrite disco_loop_step.
  inversion Hq as [|? ? Hco Hq']; subst.
  assert (Hd : @decodes demo_imports w opcode_27 3 = true)
    by (rewrite (decodes_same opcode_27 demo_world w 3 Hs); reflexivity).
  pose proof (loop_body_done opcode_27 f2_7 sys_stdout 3 queue w Hd) as Hdone.
  rewrite (children_same opcode_27 demo_world w (VCode 3) Hs) in Hdone.
  destruct (loop_body_frame opcode_27 f2_7 (VStream sys_stdout)
              (VCode 3) queue w) as (F & _ & _).
  destruct (loop_body opcode_27 f2_7 (VStream sys_stdout) (VCode 3) queue w)
    as [r w']; cbn [fst snd] in *; subst r.
  apply IH.
  - exact (same_code_trans _ _ _ Hs F).
  - destruct queue; discriminate.
  - apply Forall_app. split; auto. repeat constructor.
Qed.
End Cyclic.

(** * The claims *)



(** C2, as the code has it.  [get_opcode] matches the version number
    exactly, and consults the alternate-runtime flag for 2.6 and 2.7
    only: what it finds is what the registry holds for the version and
    the flag when the version is 2.6 or 2.7, and for the version and the
    standard runtime otherwise; a version that is none of the eleven
    finds nothing, whatever is near it. *)
Theorem get_opcode_registry `{Imports} version :
  found (get_opcode version)
  = registry_lookup registry version
      (IS_PYPY && (SFeqb version f2_6 || SFeqb version f2_7)).
Proof.
  unfold get_opcode.
  repeat match goal with
         | |- context [if SFeqb version ?lit then _ else _] =>
             let E := fresh "E" in
             destruct (SFeqb version lit) eqn:E;
             [ apply SFeqb_finite_eq in E; subst version;
               destruct IS_PYPY; reflexivity | ]
         end.
  cbn [registry registry_lookup found].
  repeat match goal with
         | E : SFeqb version _ = false |- _ => rewrite E; clear E
         end.
  reflexivity.
Qed.

(** C2, as stated, fails: under the alternate runtime, version 2.5 has
    no table in the registry, and [get_opcode] hands out the table of the
    standard runtime. *)
Lemma get_opcode_pypy_25 :
  @get_opcode demo_imports_pypy f2_5 = Ok opcode_25
  /\ registry_lookup registry f2_5 (@IS_PYPY demo_imports_pypy) = None
  /\ found (@get_opcode demo_imports_pypy f2_5)
     <> registry_lookup registry f2_5 (@IS_PYPY demo_imports_pypy)
  /\ registry_lookup registry f2_5 (@IS_PYPY demo_imports) = Some opcode_25.
Proof. repeat split. discriminate. Qed.

(** C3, as the code has it.  On a code object and a writer, an
    unsupported revision makes [disco] raise the [TypeError] of
    [get_opcode] once the program header, the timestamp line (for a
    timestamp above 0) and the header of the root (for a filename that is
    not empty) are written; a timestamp above 0 that cannot be rendered
    ends [disco] earlier, with the exception of the rendering, right
    after the program header.  Either way the program header is written
    before the failure, nothing is decoded and no listing is written. *)
Theorem disco_unsupported_revision `{Imports}
  fuel version a timestamp s w e :
  get_opcode version = Raise e ->
  e = TypeError (str_float version ++ " is not a Python version I know about")
  /\ disco fuel version (VCode a) timestamp (VStream s) w
     = match preamble version timestamp with
       | Ok lines =>
           (Raised e, write_all s (lines ++ root_header w version a) w)
       | Raise e' =>
           (Raised e', append_stream s (program_header version) w)
       end
  /\ exists rest,
       streams (snd (disco fuel version (VCode a) timestamp (VStream s) w)) s
       = streams w s ++ program_header version :: rest.
Proof.
  intros Hv. split; [now apply get_opcode_raise|].
  rewrite disco_run, Hv. split; [reflexivity|].
  unfold preamble.
  destruct (0 <? timestamp)%Z;
    [destruct (timestamp_line timestamp) as [line|e']|]; cbn [snd].
  - eexists. rewrite streams_write_all. reflexivity.
  - exists []. apply streams_append_same.
  - eexists. rewrite streams_write_all. reflexivity.
Qed.

Lemma disco_unsupported_revision_witness :
  @get_opcode demo_imports f9_9
  = Raise (TypeError "9.9 is not a Python version I know about")
  /\ fst (@disco demo_imports 5 f9_9 (VCode 0) 0 (VStream sys_stdout)
            demo_world)
     = Raised (TypeError "9.9 is not a Python version I know about").
Proof.
  split; [reflexivity|].
  destruct (@disco_unsupported_revision demo_imports 5 f9_9 0 0%Z sys_stdout
              demo_world _ eq_refl) as (_ & E & _).
  rewrite E. reflexivity.
Defined.

(** C3, as stated, fails: revision 9.9 is not supported, and when [disco]
    fails two lines have been written to a stream that was empty. *)
Lemma disco_unsupported_after_output :
  @get_opcode demo_imports f9_9
  = Raise (TypeError "9.9 is not a Python version I know about")
  /\ streams demo_world (user_stream 0) = []
  /\ streams (snd (@disco demo_imports 5 f9_9 (VCode 0) 0
                     (VStream (user_stream 0)) demo_world)) (user_stream 0)
     = [ @program_header demo_imports f9_9;
         (@format_code_info demo_imports demo_objs (demo_objs 0) f9_9
            ++ nl)%string ].
Proof. repeat split. Qed.

(** C4, as the code has it.  When no infinite chain of references starts
    at the root (shared references are allowed, cycles are not), the loop
    ends: from some number of iterations on it has returned or raised,
    and further fuel changes nothing. *)
Theorem disco_loop_terminates_acyclic `{Imports}
  opc version root real_out w :
  Acc (references w opc) root ->
  exists n,
    fst (disco_loop n opc version [root] real_out w) <> Running
    /\ forall fuel, n <= fuel ->
         disco_loop fuel opc version [root] real_out w
         = disco_loop n opc version [root] real_out w.
Proof.
  intros Hacc.
  destruct (Acc_tree_size (children w opc) root Hacc) as [n Hn].
  assert (Hf : forest_size (children w opc) [root] (n + 0))
    by (constructor; [exact Hn | constructor]).
  assert (Hend : fst (disco_loop n opc version [root] real_out w) <> Running).
  { apply (disco_loop_bounded opc version (children w opc) n [root] (n + 0));
      auto. lia. }
  exists n. split; [exact Hend|].
  intros fuel Hle.
  induction Hle as [|m Hle IH]; [reflexivity|].
  rewrite disco_loop_more_fuel; [exact IH|].
  now rewrite IH.
Qed.

Lemma disco_loop_terminates_acyclic_witness :
  exists n,
    fst (@disco_loop demo_imports n opcode_27 f2_7 [VCode 0]
           (VStream sys_stdout) demo_world) <> Running
    /\ forall fuel, n <= fuel ->
         @disco_loop demo_imports fuel opcode_27 f2_7 [VCode 0]
           (VStream sys_stdout) demo_world
         = @disco_loop demo_imports n opcode_27 f2_7 [VCode 0]
             (VStream sys_stdout) demo_world.
Proof.
  apply (@disco_loop_terminates_acyclic demo_imports).
  apply (finite_depth_Acc (@children demo_imports demo_world opcode_27) 2).
  reflexivity.
Defined.

(** C4, as stated, fails: a code object whose instructions load the
    object itself keeps the queue from ever becoming empty. *)
Lemma disco_loop_cyclic_runs_forever :
  In (VCode 3) (@children demo_imports demo_world opcode_27 (VCode 3))
  /\ forall fuel,
       fst (@disco_loop demo_imports fuel opcode_27 f2_7 [VCode 3]
              (VStream sys_stdout) demo_world) = Running.
Proof.
  split; [now left|].
  intros fuel. apply cyclic_queue_runs.
  - apply same_code_refl.
  - discriminate.
  - repeat constructor.
Qed.

(** C5, as the code has it.  On a code object and a writer, once the
    preamble is written, [disco] writes the code information of the root
    followed by a newline if and only if the filename of the root is not
    empty; then, with a supported revision, for every visit in order,
    the visit of the root included, the loop writes a header (newline,
    code information, newline) if and only if the name of the visited
    object is not [<module>], and the listing of the object.  (A writer
    whose truth value is false gets the root's code information only:
    the loop then writes to [sys.stdout].) *)
Theorem disco_headers `{Imports} fuel version a timestamp s lines w :
  preamble version timestamp = Ok lines ->
  streams (snd (disco fuel version (VCode a) timestamp (VStream s) w)) s
  = streams w s
    ++ lines
    ++ (if negb (co_filename (objs w a) =? "")%string
        then [(format_code_info (objs w) (objs w a) version ++ nl)%string]
        else [])
    ++ match get_opcode version with
       | Raise _ => []
       | Ok opc =>
           if stream_truthy s then
             flat_map
               (fun co =>
                  match co with
                  | VCode b =>
                      (if negb (co_name (objs w b) =? "<module>")%string
                       then [(nl ++ format_code_info (objs w) (objs w b)
                                       version ++ nl)%string]
                       else [])
                      ++ match Bytecode_dis (objs w) (opcodes w opc)
                                 (objs w b) with
                         | Ok text => [(text ++ nl)%string]
                         | Raise _ => []
                         end
                  | _ => []
                  end)
               (visits fuel opc version [VCode a] (VStream s) w)
           else []
       end.
Proof.
  intros Hp. rewrite disco_output, Hp. reflexivity.
Qed.

Lemma disco_headers_witness :
  @preamble demo_imports f2_7 0 = Ok [@program_header demo_imports f2_7]
  /\ streams (snd (@disco demo_imports 5 f2_7 (VCode 4) 0
                     (VStream sys_stdout) demo_world)) sys_stdout
     = [ @program_header demo_imports f2_7;
         @object_header demo_imports demo_world f2_7 4;
         ("RETURN_VALUE" ++ nl)%string ].
Proof.
  split; [reflexivity|].
  rewrite (@disco_headers demo_imports 5 f2_7 4 0%Z sys_stdout
             [@program_header demo_imports f2_7] demo_world eq_refl).
  reflexivity.
Defined.

(** C5, as stated, fails: a root that is a function with an empty
    filename has its header written all the same, by the loop. *)
Lemma disco_root_header_without_filename :
  co_filename (demo_objs 4) = ""
  /\ written (@object_header demo_imports demo_world f2_7 4)
       (snd (@disco demo_imports 5 f2_7 (VCode 4) 0 (VStream sys_stdout)
               demo_world)) sys_stdout.
Proof.
  split; [reflexivity|].
  unfold written. vm_compute. right. left. reflexivity.
Qed.

(** C6, as the code has it.  On a code object and a writer, the first
    thing [disco] writes is the program header, with the revision and the
    version of the host.  The timestamp line follows if and only if the
    timestamp is above 0 and can be rendered as a date and time; what
    comes after is the header of the root and the output of the visits.
    A timestamp above 0 that cannot be rendered makes [disco] raise the
    exception of the rendering with the program header as its only
    output. *)
Theorem disco_program_header `{Imports} fuel version a timestamp s w :
  streams (snd (disco fuel version (VCode a) timestamp (VStream s) w)) s
  = streams w s
    ++ ("# Python bytecode " ++ str_float version
          ++ " (disassembled from Python " ++ str_float PYTHON_VERSION
          ++ ")" ++ nl)%string
    :: (let rest :=
          root_header w version a
          ++ match get_opcode version with
             | Ok opc =>
                 if stream_truthy s
                 then flat_map (visit_output w opc version)
                        (visits fuel opc version [VCode a] (VStream s) w)
                 else []
             | Raise _ => []
             end in
        if (0 <? timestamp)%Z then
          match timestamp_line timestamp with
          | Ok line => line :: rest
          | Raise _ => []
          end
        else rest)
  /\ forall e,
       (0 <? timestamp)%Z = true ->
       timestamp_line timestamp = Raise e ->
       disco fuel version (VCode a) timestamp (VStream s) w
       = (Raised e, append_stream s (program_header version) w).
Proof.
  split.
  - rewrite disco_output. unfold preamble. cbv zeta.
    destruct (0 <? timestamp)%Z;
      [destruct (timestamp_line timestamp)|]; reflexivity.
  - intros e Hpos He. rewrite disco_run. unfold preamble.
    now rewrite Hpos, He.
Qed.

(** C6, as stated, fails: the timestamp 253402300800 is above 0, and it
    is past the last second [datetime] renders; [disco] raises and the
    program header is all that was written. *)
Lemma disco_timestamp_not_rendered :
  (0 < 253402300800)%Z
  /\ @disco demo_imports 5 f2_7 (VCode 0) 253402300800
       (VStream sys_stdout) demo_world
     = (Raised (ValueError "year is out of range"),
        append_stream sys_stdout (@program_header demo_imports f2_7)
          demo_world)
  /\ streams (snd (@disco demo_imports 5 f2_7 (VCode 0) 253402300800
                     (VStream sys_stdout) demo_world)) sys_stdout
     = [@program_header demo_imports f2_7].
Proof. repeat split. Qed.



(** C8. Called on a value that is not a code object, [disco] raises
    [AssertionError] and leaves the world as it was: nothing is written. *)
Theorem disco_asserts_code `{Imports} fuel version co timestamp out w :
  iscode co = false ->
  disco fuel version co timestamp out w = (Raised AssertionError, w).
Proof.
  intros Hco. unfold disco, bind. now rewrite Hco.
Qed.

Lemma disco_asserts_code_witness :
  iscode (VStr "not code") = false
  /\ @disco demo_imports 5 f2_7 (VStr "not code") 0 (VStream sys_stdout)
       demo_world
     = (Raised AssertionError, demo_world).
Proof.
  split; [reflexivity|].
  apply (@disco_asserts_code demo_imports). reflexivity.
Defined.

(** C9. The stream kept for the loop falls back to [sys.stdout], but the
    header is written to [out] itself: with [out] being [None], [disco]
    on a code object raises [AttributeError] at the header and nothing is
    written, not to [sys.stdout] either. *)
Theorem disco_out_none `{Imports} fuel version a timestamp w :
  py_or VNone (VStream sys_stdout) = VStream sys_stdout
  /\ disco fuel version (VCode a) timestamp VNone w
     = (Raised (AttributeError "object has no attribute 'write'"), w).
Proof. split; reflexivity. Qed.

(** C10, as the code has it.  With one command-line argument, or with
    none under Python 3, [_test] reaches the call of [disassemble_file]
    and that call raises [TypeError] for the keyword [native], before the
    body runs: nothing is disassembled and nothing is written.  With any
    other command line [_test] writes the usage line to [sys.stderr] and
    raises [SystemExit] with status 2. *)
Theorem test_entry_point `{Imports} fuel argv w :
  _test fuel argv w
  = if Nat.eqb (List.length argv) 2
       || (Nat.eqb (List.length argv) 1 && PYTHON3)
    then (Raised
            (TypeError
               "disassemble_file() got an unexpected keyword argument 'native'"),
          w)
    else (Raised (SystemExit 2), append_stream sys_stderr usage w).
Proof.
  unfold _test, bind.
  destruct (Nat.eqb (List.length argv) 2); simpl.
  - apply call_native.
  - destruct (Nat.eqb (List.length argv) 1 && PYTHON3); simpl.
    + apply call_native.
    + reflexivity.
Qed.

(** C10, as stated, fails: with two command-line arguments the script
    ends in [SystemExit], which is not a [TypeError]. *)
Lemma test_two_arguments_exit :
  fst (@_test demo_imports 5 ["main.py"; "a.pyc"; "b.pyc"] demo_world)
  = Raised (SystemExit 2).
Proof. reflexivity. Qed.

(** * Further properties of the code *)

(** ** [get_opcode] *)

(** Finds the pair in a list written out. *)
Ltac in_list := simpl; repeat first [ left; reflexivity | right ].

Lemma get_opcode_ok `{Imports} version table :
  get_opcode version = Ok table -> In (version, table) version_tables.
Proof.
  unfold get_opcode, version_tables.
  repeat match goal with
         | |- context [if SFeqb version ?lit then _ else _] =>
             let E := fresh "E" in
             destruct (SFeqb version lit) eqn:E;
             [ apply SFeqb_finite_eq in E; subst version;
               cbv beta iota; destruct IS_PYPY;
               intros [= <-]; in_list | ]
         end.
  discriminate.
Qed.

(** X1. [get_opcode] returns a table exactly for the eleven float
    literals of its comparisons: any other number, however near, and any
    zero, infinity or NaN, raises. *)
Theorem get_opcode_supported_exactly `{Imports} version :
  (exists table, get_opcode version = Ok table)
  <-> In version supported_versions.
Proof.
  split.
  - intros [table Hok]. apply get_opcode_ok in Hok.
    apply (in_map fst) in Hok. exact Hok.
  - unfold supported_versions. simpl.
    intros Hin.
    repeat (destruct Hin as [<-|Hin];
            [destruct IS_PYPY eqn:E; eexists; unfold get_opcode;
             cbn; rewrite ?E; reflexivity|]).
    contradiction.
Qed.

(** X2. Under one runtime, two versions that get the same table are the
    same number: no table serves two versions. *)
Theorem get_opcode_injective `{Imports} v1 v2 table :
  get_opcode v1 = Ok table -> get_opcode v2 = Ok table -> v1 = v2.
Proof.
  intros H1 H2. apply get_opcode_ok in H1, H2.
  unfold version_tables in *. destruct IS_PYPY; simpl in H1, H2;
    repeat match goal with
           | Hd : _ \/ _ |- _ => destruct Hd as [Hd|Hd]
           end;
    solve [contradiction | congruence].
Qed.

Lemma get_opcode_injective_witness :
  @get_opcode demo_imports f2_7 = Ok opcode_27
  /\ f2_7 = f2_7.
Proof.
  split; [reflexivity|].
  apply (@get_opcode_injective demo_imports f2_7 f2_7 opcode_27);
    reflexivity.
Defined.

(** ** Where [disco] writes *)

(** X3. Given a writer as [out], [disco] writes to that writer and to the
    stream of the loop, [out or sys.stdout], only: every other stream is
    left as it was, whatever the root is and however the call ends.  For
    a writer whose truth value is true the two are one, and nothing goes
    to [sys.stdout]. *)
Theorem disco_writes_to_out_only `{Imports}
  fuel version co timestamp s s' w :
  s' <> s ->
  s' <> real_stream s ->
  streams (snd (disco fuel version co timestamp (VStream s) w)) s'
  = streams w s'.
Proof.
  intros Hne Hreal. destruct co; try reflexivity.
  rewrite disco_run.
  destruct (preamble version timestamp) as [lines|e]; cbn [snd].
  - destruct (get_opcode version) as [opc|e].
    + rewrite disco_loop_other_stream by exact Hreal.
      now apply streams_write_all_other.
    + cbn [snd]. now apply streams_write_all_other.
  - now apply streams_append_other.
Qed.

Lemma disco_writes_to_out_only_witness :
  sys_stdout <> user_stream 0
  /\ sys_stdout <> real_stream (user_stream 0)
  /\ streams (snd (@disco demo_imports 9 f2_7 (VCode 0) 5
                     (VStream (user_stream 0)) demo_world)) sys_stdout
     = [].
Proof.
  split; [discriminate|]. split; [discriminate|].
  apply (@disco_writes_to_out_only demo_imports 9 f2_7 (VCode 0) 5%Z
           (user_stream 0) sys_stdout demo_world); discriminate.
Defined.

(** A writer whose truth value is false gets the program header and the
    header of the root; the output of the loop goes to [sys.stdout]. *)
Lemma falsy_writer_splits_output :
  real_stream (falsy_stream 0) = sys_stdout
  /\ streams (snd (@disco demo_imports 5 f2_7 (VCode 1) 0
                     (VStream (falsy_stream 0)) demo_world)) (falsy_stream 0)
     = [ @program_header demo_imports f2_7;
         (@format_code_info demo_imports demo_objs (demo_objs 1) f2_7
            ++ nl)%string ]
  /\ streams (snd (@disco demo_imports 5 f2_7 (VCode 1) 0
                     (VStream (falsy_stream 0)) demo_world)) sys_stdout
     = [ @object_header demo_imports demo_world f2_7 1;
         ("RETURN_VALUE" ++ nl)%string ].
Proof. repeat split. Qed.

(** ** What the loop visits *)

(** X4. From a queue of code objects the loop visits code objects only:
    nothing else is ever enqueued, so the attributes read at a visit are
    always there. *)
Theorem visits_are_code `{Imports} opc version real_out fuel :
  forall queue w,
    Forall (fun v => iscode v = true) queue ->
    Forall (fun v => iscode v = true)
           (visits fuel opc version queue real_out w).
Proof.
  induction fuel as [|fuel IH]; intros [|co queue] w Hq;
    try (constructor; fail).
  inversion Hq as [|? ? Hco Hq']; subst.
  simpl. constructor; [exact Hco|].
  destruct (loop_body_frame opc version real_out co queue w)
    as (_ & _ & Hdone).
  destruct (loop_body opc version real_out co queue w) as [[q'|e|] w'];
    try (constructor; fail).
  apply IH. rewrite (Hdone q' eq_refl).
  apply Forall_app. split; [exact Hq' | apply children_iscode].
Qed.

Lemma visits_are_code_witness :
  Forall (fun v => iscode v = true)
         (@visits demo_imports 9 opcode_27 f2_7 [VCode 0] (VStream sys_stdout)
            demo_world).
Proof.
  apply (@visits_are_code demo_imports opcode_27 f2_7 (VStream sys_stdout) 9
           [VCode 0] demo_world).
  repeat constructor.
Defined.

(** ** Complete traversals *)

Section Complete.
Context `{Imports}.
Variables (opc : OpcodeModule) (version : pyfloat) (s : stream).
Variable next : value -> list value.

Lemma forest_size_nil_inv n : forest_size next [] n -> n = 0.
Proof. now inversion 1. Qed.

Lemma forest_size_split q1 :
  forall q2 n,
    forest_size next (q1 ++ q2) n ->
    exists n1 n2,
      n = n1 + n2 /\ forest_size next q1 n1 /\ forest_size next q2 n2.
Proof.
  induction q1 as [|co q1 IH]; intros q2 n Hf.
  - exists 0, n. repeat split; [constructor | exact Hf].
  - simpl in Hf. inversion Hf as [|? ? k m Ht Hf' E]; subst.
    destruct (IH q2 m Hf') as (n1 & n2 & -> & H1 & H2).
    exists (k + n1), n2. repeat split; [lia | now constructor | exact H2].
Qed.

Lemma forest_size_In l k y :
  forest_size next l k -> In y l ->
  exists m, m <= k /\ tree_size next y m.
Proof.
  induction 1 as [|co q n m Ht Hf IH]; intros Hin; [contradiction|].
  destruct Hin as [<-|Hin].
  - exists n. split; [lia | exact Ht].
  - destruct (IH Hin) as (m' & Hle & Hm). exists m'. split; [lia | exact Hm].
Qed.

(** A finite unfolding has no infinite chain of references. *)
Lemma tree_size_Acc n :
  forall co, tree_size next co n ->
             Acc (fun child parent => In child (next parent)) co.
Proof.
  induction n as [n IH] using lt_wf_ind. intros co Ht.
  inversion Ht as [? k Hf]; subst.
  constructor. intros y Hy.
  destruct (forest_size_In _ _ y Hf Hy) as (m & Hle & Hm).
  apply (IH m); [lia | exact Hm].
Qed.

(** The queue discipline visits every node of a finite unfolding. *)
Lemma queue_order_complete fuel :
  forall queue n,
    forest_size next queue n -> n <= fuel ->
    List.length (queue_order next fuel queue) = n.
Proof.
  induction fuel as [|fuel IH]; intros queue n Hf Hle.
  - assert (n = 0) as -> by lia.
    apply forest_size_zero in Hf. now subst.
  - destruct queue as [|co queue].
    + now apply forest_size_nil_inv in Hf.
    + inversion Hf as [|? ? k m Ht Hf' E]; subst.
      destruct Ht as [co k Hk]. simpl. f_equal.
      rewrite (IH _ (m + k)); [lia | now apply forest_size_app | lia].
Qed.

(** When the objects decode, the loop on code objects raises nothing. *)
Lemma disco_loop_decodes fuel :
  forall queue w,
    (forall a, decodes w opc a = true) ->
    Forall (fun v => iscode v = true) queue ->
    fst (disco_loop fuel opc version queue (VStream s) w) = Done tt
    \/ fst (disco_loop fuel opc version queue (VStream s) w) = Running.
Proof.
  induction fuel as [|fuel IH]; intros [|co queue] w Hd Hq;
    try (now left); try (now right).
  rewrite disco_loop_step.
  inversion Hq as [|? ? Hco Hq']; subst.
  destruct co; try discriminate.
  pose proof (loop_body_done opc version s a queue w (Hd a)) as Hdone.
  destruct (loop_body_frame opc version (VStream s) (VCode a) queue w)
    as (F & _ & _).
  destruct (loop_body opc version (VStream s) (VCode a) queue w)
    as [r w']; cbn [fst snd] in *; subst r.
  apply IH.
  - intros b. rewrite <- (Hd b). now apply decodes_same.
  - apply Forall_app. split; [exact Hq' | apply children_iscode].
Qed.

(** A loop that returns has emptied a queue with a finite unfolding. *)
Lemma disco_loop_done_forest fuel :
  forall queue w,
    (forall co, children w opc co = next co) ->
    (forall a, decodes w opc a = true) ->
    Forall (fun v => iscode v = true) queue ->
    fst (disco_loop fuel opc version queue (VStream s) w) = Done tt ->
    exists n, forest_size next queue n.
Proof.
  induction fuel as [|fuel IH]; intros [|co queue] w Hn Hd Hq Hdn;
    try (exists 0; constructor; fail); try discriminate.
  rewrite disco_loop_step in Hdn.
  inversion Hq as [|? ? Hco Hq']; subst.
  destruct co; try discriminate.
  pose proof (loop_body_done opc version s a queue w (Hd a)) as Hdone.
  destruct (loop_body_frame opc version (VStream s) (VCode a) queue w)
    as (F & _ & _).
  destruct (loop_body opc version (VStream s) (VCode a) queue w)
    as [r w']; cbn [fst snd] in *; subst r.
  rewrite Hn in Hdn.
  destruct (IH (queue ++ next (VCode a)) w') as [n Hf]; auto.
  - intros co. rewrite <- Hn. now apply children_same.
  - intros b. rewrite <- (Hd b). now apply decodes_same.
  - apply Forall_app. split; [exact Hq'|].
    rewrite <- Hn. apply children_iscode.
  - apply forest_size_split in Hf.
    destruct Hf as (n1 & n2 & -> & H1 & H2).
    exists (S n2 + n1). constructor; [now constructor | exact H1].
Qed.
End Complete.

(** X5. When the objects decode and the unfolding of the root along its
    references has [n] nodes, shared objects counted once per reference,
    the loop returns within [n] iterations and has visited exactly [n]
    objects. *)
Theorem disco_loop_complete `{Imports} opc version s a n fuel w :
  (forall b, decodes w opc b = true) ->
  tree_size (children w opc) (VCode a) n ->
  n <= fuel ->
  fst (disco_loop fuel opc version [VCode a] (VStream s) w) = Done tt
  /\ List.length (visits fuel opc version [VCode a] (VStream s) w) = n.
Proof.
  intros Hd Ht Hle.
  assert (Hf : forest_size (children w opc) [VCode a] (n + 0))
    by (constructor; [exact Ht | constructor]).
  assert (Hq : Forall (fun v => iscode v = true) [VCode a])
    by (repeat constructor).
  split.
  - destruct (disco_loop_decodes opc version s fuel [VCode a] w Hd Hq)
      as [E|E]; [exact E|].
    exfalso.
    apply (disco_loop_bounded opc version (children w opc) fuel
             [VCode a] (n + 0) (VStream s) w); auto. lia.
  - rewrite (visits_queue_order opc version (children w opc) s fuel); auto.
    rewrite (queue_order_complete (children w opc) fuel [VCode a] (n + 0));
      auto; lia.
Qed.

Lemma disco_loop_complete_witness :
  fst (@disco_loop demo_imports 4 opcode_27 f2_7 [VCode 0]
         (VStream sys_stdout) demo_world) = Done tt
  /\ List.length (@visits demo_imports 4 opcode_27 f2_7 [VCode 0]
                    (VStream sys_stdout) demo_world) = 4.
Proof.
  apply (@disco_loop_complete demo_imports opcode_27 f2_7 sys_stdout 0 4 4
           demo_world).
  - intros b. do 5 (destruct b as [|b]; [reflexivity|]). reflexivity.
  - apply (tree_size_node _ (VCode 0) 3).
    change (forest_size (@children demo_imports demo_world opcode_27)
              [VCode 2; VCode 1; VCode 2] (1 + (1 + (1 + 0)))).
    repeat first
      [ apply forest_size_nil
      | apply forest_size_cons
      | apply (tree_size_node _ (VCode 1) 0)
      | apply (tree_size_node _ (VCode 2) 0) ].
  - apply le_n.
Defined.

(** X6. When the objects decode, the loop seeded with a code object
    returns for some number of iterations if and only if no infinite
    chain of references starts at that object: a cycle below the root is
    the only thing that keeps the loop running. *)
Theorem disco_loop_returns_iff_acyclic `{Imports} opc version s a w :
  (forall b, decodes w opc b = true) ->
  (exists fuel,
      fst (disco_loop fuel opc version [VCode a] (VStream s) w) = Done tt)
  <-> Acc (references w opc) (VCode a).
Proof.
  intros Hd.
  assert (Hq : Forall (fun v => iscode v = true) [VCode a])
    by (repeat constructor).
  split.
  - intros [fuel Hdone].
    destruct (disco_loop_done_forest opc version s (children w opc) fuel
                [VCode a] w) as [n Hf]; auto.
    inversion Hf as [|? ? k m Ht Hf' E]; subst.
    exact (tree_size_Acc (children w opc) k (VCode a) Ht).
  - intros Hacc.
    destruct (Acc_tree_size (children w opc) (VCode a) Hacc) as [n Hn].
    exists n.
    destruct (disco_loop_decodes opc version s n [VCode a] w Hd Hq)
      as [E|E]; [exact E|].
    exfalso.
    apply (disco_loop_bounded opc version (children w opc) n
             [VCode a] (n + 0) (VStream s) w); auto.
    + constructor; [exact Hn | constructor].
    + lia.
Qed.

Lemma disco_loop_returns_iff_acyclic_witness :
  (exists fuel,
      fst (@disco_loop demo_imports fuel opcode_27 f2_7 [VCode 0]
             (VStream sys_stdout) demo_world) = Done tt)
  <-> Acc (@references demo_imports demo_world opcode_27) (VCode 0).
Proof.
  apply (@disco_loop_returns_iff_acyclic demo_imports opcode_27 f2_7
           sys_stdout 0 demo_world).
  intros b. do 5 (destruct b as [|b]; [reflexivity|]). reflexivity.
Defined.

(** ** The header of a root that is not a module *)

(** X8. For a root with a filename and a name other than [<module>],
    given a writer whose truth value is true, a supported revision and a
    preamble that is written, the code information of the root is
    written twice in a row: by [disco] before the traversal, and by the
    loop at the visit of the root. *)
Theorem disco_root_header_twice `{Imports}
  fuel version opc a timestamp s lines w :
  preamble version timestamp = Ok lines ->
  get_opcode version = Ok opc ->
  stream_truthy s = true ->
  negb (co_filename (objs w a) =? "")%string = true ->
  negb (co_name (objs w a) =? "<module>")%string = true ->
  exists rest,
    streams (snd (disco (S fuel) version (VCode a) timestamp (VStream s) w)) s
    = streams w s
      ++ lines
      ++ [ (format_code_info (objs w) (objs w a) version ++ nl)%string;
           (nl ++ format_code_info (objs w) (objs w a) version ++ nl)%string ]
      ++ rest.
Proof.
  intros Hp Hv Ht Hfile Hname.
  rewrite disco_output, Hp, Hv, Ht.
  unfold root_header, truthy. rewrite Hfile.
  cbn [visits flat_map visit_output]. rewrite Hname.
  unfold object_header.
  eexists. cbn [app]. reflexivity.
Qed.

Lemma disco_root_header_twice_witness :
  exists rest,
    streams (snd (@disco demo_imports 5 f2_7 (VCode 1) 0
                    (VStream sys_stdout) demo_world)) sys_stdout
    = streams demo_world sys_stdout
      ++ [@program_header demo_imports f2_7]
      ++ [ (@format_code_info demo_imports demo_objs (demo_objs 1) f2_7
              ++ nl)%string;
           (nl ++ @format_code_info demo_imports demo_objs (demo_objs 1) f2_7
               ++ nl)%string ]
      ++ rest.
Proof.
  apply (@disco_root_header_twice demo_imports 4 f2_7 opcode_27 1 0%Z
           sys_stdout [@program_header demo_imports f2_7] demo_world);
    reflexivity.
Defined.
